(** * Duval triangle 1 classifier and IEEE C57.104-2019 screening

    Shallow embedding of [src/main.py] (the DGA simulator): the ternary
    projection [tern2cart], the ordered rule table [clasificar_duval], the
    zone raster painted inside [plot_duval_triangle], and the three IEEE
    screening steps [ieee_paso1_clasificar_sistema], [ieee_obtener_limites]
    and [ieee_paso3_condicion]; then the reference lines of the plot
    ([segmento_ternario]), its label anchors, the fault catalogue
    ([get_fault_details]) and the two pieces of the page script that feed
    the functions: the sidebar that turns the form into percentages and the
    IEEE tab that chains the three steps.

    Numbers.  The Python code computes on ints and floats.  Here every
    number is an exact rational ([Q]); comparisons are the boolean ones of
    [QArith], and equalities between computed numbers are stated with
    [==] ([Qeq]).  Rounding of binary floating point is not modelled.

    Dictionaries are [gmap string _]; [d.get(k)] is the lookup [d !! k],
    a missing key and a stored [None] both being [None]. *)

From Stdlib Require Import QArith Qabs Lqa ZArith List.
From stdpp Require Import gmap strings.
Import ListNotations.

Local Open Scope string_scope.

(** ** Python numeric operators on rationals *)

Module Py.

(** [a <= b], [a < b], [a >= b], [a > b], [a == b] on numbers. *)
Definition le (a b : Q) : bool := Qle_bool a b.
Definition lt (a b : Q) : bool := negb (Qle_bool b a).
Definition ge (a b : Q) : bool := Qle_bool b a.
Definition gt (a b : Q) : bool := negb (Qle_bool a b).
Definition eq (a b : Q) : bool := Qeq_bool a b.

(** [x or 0]: a missing value ([None]) and a zero are both falsy. *)
Definition or0 (x : option Q) : Q :=
  match x with
  | Some v => if eq v 0 then 0%Q else v
  | None => 0%Q
  end.

End Py.

(** ** Duval triangle 1: zone codes and the point classifier *)

(** The nine strings [clasificar_duval] can return. *)
Inductive codigo : Set :=
  | PD | T1 | T2 | T3 | D1 | D2 | DT
  | NA      (* "N/A" *)
  | Fuera.  (* "Fuera (suma ≠ 100%)" *)

Definition codigo_str (c : codigo) : string :=
  match c with
  | PD => "PD" | T1 => "T1" | T2 => "T2" | T3 => "T3"
  | D1 => "D1" | D2 => "D2" | DT => "DT"
  | NA => "N/A"
  | Fuera => "Fuera (suma ≠ 100%)"
  end.

(** The rule table proper, lines 76-96: what runs once both checks on the
    sum have passed. *)
Definition tabla_duval (ch4 c2h4 c2h2 : Q) : codigo :=
  if Py.ge ch4 98 then PD
  else if Py.lt c2h2 4 && Py.lt c2h4 20 then T1
  else if Py.lt c2h2 4 && (Py.le 20 c2h4 && Py.lt c2h4 50) then T2
  else if Py.lt c2h2 15 && Py.ge c2h4 50 then T3
  else if Py.ge c2h2 13 && Py.lt c2h4 23 then D1
  else if Py.ge c2h4 23 && Py.ge c2h2 29 then D2
  else if (Py.le 23 c2h4 && Py.lt c2h4 40) && (Py.le 13 c2h2 && Py.lt c2h2 29) then D2
  else if (Py.le 4 c2h2 && Py.lt c2h2 13) && Py.lt c2h4 50 then DT
  else if (Py.le 40 c2h4 && Py.lt c2h4 50) && (Py.le 13 c2h2 && Py.lt c2h2 29) then DT
  else if Py.ge c2h4 50 && (Py.le 15 c2h2 && Py.lt c2h2 29) then DT
  else DT.

Definition clasificar_duval (ch4 c2h4 c2h2 : Q) : codigo :=
  let total := (ch4 + c2h4 + c2h2)%Q in
  if Py.eq total 0 then NA
  else if Py.gt (Qabs (ch4 + c2h4 + c2h2 - 100)) (1 # 100) then Fuera
  else tabla_duval ch4 c2h4 c2h2.

(** The rule list of the design document, section 4.2, items 3 to 12, in
    the order given there.  This definition follows the document, not the
    code; [clasificar_duval] above is the code. *)
Record regla : Type := Regla {
  guarda : Q -> Q -> Q -> bool;   (* arguments: ch4, c2h4, c2h2 *)
  zona : codigo
}.

Definition reglas_seccion_4_2 : list regla := [
  Regla (fun ch4 _ _ => Py.ge ch4 98) PD;
  Regla (fun _ c2h4 c2h2 => Py.lt c2h2 4 && Py.lt c2h4 20) T1;
  Regla (fun _ c2h4 c2h2 => Py.lt c2h2 4 && (Py.le 20 c2h4 && Py.lt c2h4 50)) T2;
  Regla (fun _ c2h4 c2h2 => Py.lt c2h2 15 && Py.ge c2h4 50) T3;
  Regla (fun _ c2h4 c2h2 => Py.ge c2h2 13 && Py.lt c2h4 23) D1;
  Regla (fun _ c2h4 c2h2 => Py.ge c2h4 23 && Py.ge c2h2 29) D2;
  Regla (fun _ c2h4 c2h2 =>
           (Py.le 23 c2h4 && Py.lt c2h4 40) && (Py.le 13 c2h2 && Py.lt c2h2 29)) D2;
  Regla (fun _ c2h4 c2h2 => (Py.le 4 c2h2 && Py.lt c2h2 13) && Py.lt c2h4 50) DT;
  Regla (fun _ c2h4 c2h2 =>
           (Py.le 40 c2h4 && Py.lt c2h4 50) && (Py.le 13 c2h2 && Py.lt c2h2 29)) DT;
  Regla (fun _ c2h4 c2h2 => Py.ge c2h4 50 && (Py.le 15 c2h2 && Py.lt c2h2 29)) DT
].

(** Linear scan: the zone of the first rule whose guard holds, [por_defecto]
    when none does. *)
Fixpoint primera_regla (rs : list regla) (por_defecto : codigo)
    (ch4 c2h4 c2h2 : Q) : codigo :=
  match rs with
  | [] => por_defecto
  | r :: rs' =>
      if guarda r ch4 c2h4 c2h2 then zona r
      else primera_regla rs' por_defecto ch4 c2h4 c2h2
  end.

(** ** Ternary projection *)

(** [tern2cart] on scalars: [np.atleast_1d] wraps each argument in a
    one-element array and [np.squeeze] unwraps the two results. *)
Definition tern2cart (ch4 c2h4 c2h2 : Q) : Q * Q :=
  ((c2h4 / 100 + ch4 / 200)%Q, (ch4 / 100)%Q).

(** [tern2cart] on arrays of one common length (the way the plot calls it
    on the output of [segmento_ternario]); the operations are elementwise. *)
Definition tern2cart_v (ch4 c2h4 c2h2 : list Q) : list Q * list Q :=
  (zip_with (fun e m => (e / 100 + m / 200)%Q) c2h4 ch4,
   map (fun m => (m / 100)%Q) ch4).

(** Equality of plane points, component by component. *)
Definition punto_eq (p q : Q * Q) : Prop :=
  (fst p == fst q)%Q /\ (snd p == snd q)%Q.

(** ** The zone raster of [plot_duval_triangle] (lines 233-265) *)

(** [np.linspace(a, b, n)]: [a + i * step] with [step = (b - a) / (n - 1)]. *)
Definition linspace (a b : Q) (n : nat) : list Q :=
  map (fun i : nat =>
         (a + inject_Z (Z.of_nat i) * ((b - a) / inject_Z (Z.of_nat n - 1)))%Q)
      (seq 0 n).

(** One masked assignment [Z[mask] = v], seen from a single cell. *)
Definition pon (mask : bool) (v : Z) (z : option Z) : option Z :=
  if mask then Some v else z.

(** Inverse of the projection at a grid point [(x, y)]. *)
Definition ch4_g (x y : Q) : Q := (y * 100)%Q.
Definition c2h4_g (x y : Q) : Q := ((x - y / 2) * 100)%Q.
Definition c2h2_g (x y : Q) : Q := (100 - ch4_g x y - c2h4_g x y)%Q.

Definition inside (x y : Q) : bool :=
  Py.ge (ch4_g x y) 0 && Py.ge (c2h4_g x y) 0 && Py.ge (c2h2_g x y) 0.

(** The value of [Z] at the cell of plane coordinates [(x, y)] after the
    eleven masked assignments, executed in program order; [None] is the
    [nan] the array is created with.  Each assignment overwrites what an
    earlier one stored in the same cell. *)
Definition Z_celda (x y : Q) : option Z :=
  let ins := inside x y in
  let c4 := ch4_g x y in
  let c24 := c2h4_g x y in
  let c22 := c2h2_g x y in
  let z := None in
  let z := pon ins 6 z in
  let z := pon (ins && Py.ge c4 98) 0 z in
  let z := pon (ins && Py.lt c22 4 && Py.lt c24 20) 1 z in
  let z := pon (ins && Py.lt c22 4 && Py.ge c24 20 && Py.lt c24 50) 2 z in
  let z := pon (ins && Py.lt c22 15 && Py.ge c24 50) 3 z in
  let z := pon (ins && Py.ge c22 13 && Py.lt c24 23) 4 z in
  let z := pon (ins && Py.ge c24 23 && Py.ge c22 29) 5 z in
  let z := pon (ins && Py.ge c24 23 && Py.lt c24 40 && Py.ge c22 13 && Py.lt c22 29) 5 z in
  let z := pon (ins && Py.ge c22 4 && Py.lt c22 13 && Py.lt c24 50) 6 z in
  let z := pon (ins && Py.ge c24 40 && Py.lt c24 50 && Py.ge c22 13 && Py.lt c22 29) 6 z in
  let z := pon (ins && Py.ge c24 50 && Py.ge c22 15 && Py.lt c22 29) 6 z in
  z.

Definition zonas : list codigo := [PD; T1; T2; T3; D1; D2; DT].

(** The zone whose colour fills the cell: [zonas[idx]] for the [idx] with
    [Z == idx] at an inside cell; no fill where [Z] is [nan]. *)
Definition zona_celda (x y : Q) : option codigo :=
  match Z_celda x y with
  | Some idx => if inside x y then zonas !! Z.to_nat idx else None
  | None => None
  end.

(** The sample coordinates and the whole raster for [n] samples per axis
    ([n = 120] in the program); row [j] holds [y = yy[j]], column [i]
    holds [x = xx[i]], as [np.meshgrid] lays them out. *)
Definition eje (n : nat) : list Q :=
  linspace (1 # 1000000) (1 - (1 # 1000000)) n.

Definition raster (n : nat) : list (list (option codigo)) :=
  let xx := eje n in
  let yy := eje n in
  map (fun y => map (fun x => zona_celda x y) xx) yy.

Definition n_malla : nat := 120.

(** ** IEEE C57.104-2019 screening *)

Definition GASES_IEEE : list string :=
  ["H2"; "CH4"; "C2H6"; "C2H4"; "C2H2"; "CO"; "CO2"].

(** One row of a percentile table: the limits of the seven gases, in the
    order of [GASES_IEEE]. *)
Definition fila (h2 ch4 c2h6 c2h4 c2h2 co co2 : Q) : gmap string Q :=
  list_to_map [("H2", h2); ("CH4", ch4); ("C2H6", c2h6); ("C2H4", c2h4);
               ("C2H2", c2h2); ("CO", co); ("CO2", co2)].

Definition TABLA_P90 : gmap string (gmap string (gmap string Q)) :=
  list_to_map [
    ("leq02", list_to_map [
       ("desc",  fila 80 90 90 50 1 900 9000);
       ("1_9",   fila 80 45 30 20 1 900 5000);
       ("10_30", fila 75 90 90 50 1 900 10000);
       ("30",    fila 100 110 150 90 1 900 5000)]);
    ("gt02", list_to_map [
       ("desc",  fila 40 20 15 50 2 500 3500);
       ("1_9",   fila 40 20 15 25 2 500 3500);
       ("10_30", fila 40 20 15 60 2 500 5500);
       ("30",    fila 40 20 15 60 2 500 5500)])].

Definition TABLA_P95 : gmap string (gmap string (gmap string Q)) :=
  list_to_map [
    ("leq02", list_to_map [
       ("desc",  fila 200 150 175 100 2 1100 12500);
       ("1_9",   fila 200 100 70 40 2 1100 7000);
       ("10_30", fila 200 150 175 95 2 1100 14000);
       ("30",    fila 200 200 250 175 4 1100 14000)]);
    ("gt02", list_to_map [
       ("desc",  fila 90 50 40 100 7 600 7000);
       ("1_9",   fila 90 60 30 80 7 600 5000);
       ("10_30", fila 90 60 40 125 7 600 8000);
       ("30",    fila 90 80 40 125 7 600 8000)])].

(** Step 1.  Both arguments may be [None]; the result is the pair
    (table key, label), [(None, None)] when the ratio is undefined. *)
Definition ieee_paso1_clasificar_sistema (o2_ppm n2_ppm : option Q)
    : option string * option string :=
  match n2_ppm with
  | None => (None, None)
  | Some n2 =>
      if Py.eq n2 0 then (None, None)
      else
        let ratio := (Py.or0 o2_ppm / n2)%Q in
        if Py.le ratio (2 # 10) then (Some "leq02", Some "Sellado (O₂/N₂ ≤ 0.2)")
        else (Some "gt02", Some "Respiración libre (O₂/N₂ > 0.2)")
  end.

(** [tabla.get(ratio_key, {}).get(age_key, {})]; the key [None] that step 1
    returns for an undefined ratio is in no table. *)
Definition buscar (tabla : gmap string (gmap string (gmap string Q)))
    (ratio_key : option string) (age_key : string) : gmap string Q :=
  let por_ratio : gmap string (gmap string Q) :=
    match ratio_key with
    | Some k => default ∅ (tabla !! k)
    | None => ∅
    end in
  default ∅ (por_ratio !! age_key).

(** Step 2. *)
Definition ieee_obtener_limites (ratio_key : option string) (age_key : string)
    : gmap string Q * gmap string Q :=
  (buscar TABLA_P90 ratio_key age_key, buscar TABLA_P95 ratio_key age_key).

(** Step 3: one iteration of the loop over [GASES_IEEE]; the state is the
    pair of flags [(alguno_p95, alguno_p90)]. *)
Definition paso3_iter (valores_ppm p90 p95 : gmap string Q)
    (st : bool * bool) (g : string) : bool * bool :=
  let v := Py.or0 (valores_ppm !! g) in
  let lim95 := Py.or0 (p95 !! g) in
  let lim90 := Py.or0 (p90 !! g) in
  let alguno_p95 := if Py.ge v lim95 then true else fst st in
  let alguno_p90 := if Py.ge v lim90 then true else snd st in
  (alguno_p95, alguno_p90).

Definition ieee_paso3_condicion (valores_ppm p90 p95 : gmap string Q)
    : Z * string * string :=
  let '(alguno_p95, alguno_p90) :=
    fold_left (paso3_iter valores_ppm p90 p95) GASES_IEEE (false, false) in
  if alguno_p95 then
    (3%Z, "Condición 3 (Alta/Alerta)",
     "Los gases superan el percentil 95. Alta probabilidad de falla activa o reciente; se requiere investigación inmediata.")
  else if alguno_p90 then
    (2%Z, "Condición 2 (Precaución)",
     "Al menos un gas supera el percentil 90 pero es menor al 95. Aumentar la frecuencia de muestreo para vigilar la tendencia.")
  else
    (1%Z, "Condición 1 (Normal)",
     "Todos los gases están por debajo del percentil 90. Continuar con el muestreo normal.").

(** The condition number alone: 1 normal, 2 caution, 3 alert. *)
Definition cond_num (valores_ppm p90 p95 : gmap string Q) : Z :=
  fst (fst (ieee_paso3_condicion valores_ppm p90 p95)).

(** The reading and the limits the loop compares for gas [g]. *)
Definition lectura (valores_ppm : gmap string Q) (g : string) : Q :=
  Py.or0 (valores_ppm !! g).
Definition limite (p : gmap string Q) (g : string) : Q :=
  Py.or0 (p !! g).

(** A panel with the seven gases at 0, as the form starts out. *)
Definition panel_cero : gmap string Q := fila 0 0 0 0 0 0 0.

(** The key of step 1: [None] is the unknown regime, ["leq02"] sealed,
    ["gt02"] free breathing. *)
Definition regimen (o2_ppm n2_ppm : option Q) : option string :=
  fst (ieee_paso1_clasificar_sistema o2_ppm n2_ppm).

(** Some gas of the panel reaches its limit in the row [p] (inclusive). *)
Definition supera (valores_ppm p : gmap string Q) : Prop :=
  exists g : string,
    In g GASES_IEEE /\ (limite p g <= lectura valores_ppm g)%Q.

Definition algun_gas (valores_ppm p : gmap string Q) (gs : list string) : bool :=
  existsb (fun g => Py.ge (lectura valores_ppm g) (limite p g)) gs.

(** The rows of the sealed regime at unknown age. *)
Definition p90_sellado_desc : gmap string Q :=
  fst (ieee_obtener_limites (Some "leq02") "desc").
Definition p95_sellado_desc : gmap string Q :=
  snd (ieee_obtener_limites (Some "leq02") "desc").

(** The rows with the limits of CH4 taken out. *)
Definition p90_sin_CH4 : gmap string Q := delete "CH4" p90_sellado_desc.
Definition p95_sin_CH4 : gmap string Q := delete "CH4" p95_sellado_desc.

(** The keys of the two percentile tables. *)
Definition claves_ratio : list string := ["leq02"; "gt02"].
Definition claves_edad : list string := ["desc"; "1_9"; "10_30"; "30"].

(** ** Reference lines of the plot: [segmento_ternario] (lines 33-62) *)

(** The points [(ch4, c2h4, c2h2)] of the segment on which the component
    named by [tipo] is held at [valor]: three arrays of 50 samples, or three
    empty lists when nothing remains to distribute or [tipo] is not one of
    the three gas names.  [constante] is not used by the body.
    [np.full_like(a, valor)] is the array of the shape of [a] filled with
    [valor]; [restante - a] is elementwise. *)
Definition segmento_ternario (constante : Q) (tipo : string) (valor : Q)
    : list Q * list Q * list Q :=
  if String.eqb tipo "CH4" then
    let restante := (100 - valor)%Q in
    if Py.le restante 0 then ([], [], [])
    else
      let c2h4 := linspace 0 restante 50 in
      let c2h2 := map (fun e => (restante - e)%Q) c2h4 in
      let ch4 := map (fun _ => valor) c2h4 in
      (ch4, c2h4, c2h2)
  else if String.eqb tipo "C2H4" then
    let restante := (100 - valor)%Q in
    if Py.le restante 0 then ([], [], [])
    else
      let ch4 := linspace 0 restante 50 in
      let c2h2 := map (fun m => (restante - m)%Q) ch4 in
      let c2h4 := map (fun _ => valor) ch4 in
      (ch4, c2h4, c2h2)
  else if String.eqb tipo "C2H2" then
    let restante := (100 - valor)%Q in
    if Py.le restante 0 then ([], [], [])
    else
      let ch4 := linspace 0 restante 50 in
      let c2h4 := map (fun m => (restante - m)%Q) ch4 in
      let c2h2 := map (fun _ => valor) ch4 in
      (ch4, c2h4, c2h2)
  else ([], [], []).

(** Sample [i] of a segment as one composition, when all three arrays have
    it. *)
Definition punto_segmento (s : list Q * list Q * list Q) (i : nat)
    : option (Q * Q * Q) :=
  let '(ch4, c2h4, c2h2) := s in
  match ch4 !! i, c2h4 !! i, c2h2 !! i with
  | Some m, Some e, Some a => Some (m, e, a)
  | _, _, _ => None
  end.

(** The component of a composition that [tipo] names. *)
Definition componente (tipo : string) (p : Q * Q * Q) : Q :=
  let '(ch4, c2h4, c2h2) := p in
  if String.eqb tipo "CH4" then ch4
  else if String.eqb tipo "C2H4" then c2h4
  else c2h2.

Definition tipos_gas : list string := ["CH4"; "C2H4"; "C2H2"].

(** A composition no component of which is negative. *)
Definition no_negativa (p : Q * Q * Q) : Prop :=
  let '(ch4, c2h4, c2h2) := p in (0 <= ch4 /\ 0 <= c2h4 /\ 0 <= c2h2)%Q.


(** The label anchors of the plot (lines 276-284), in percent. *)
Definition etiquetas_tern : list (Q * Q * Q * codigo) := [
  (99, 1 # 2, 1 # 2, PD);
  (87, 10, 3, T1);
  (60, 35, 2, T2);
  (25, 65, 10, T3);
  (50, 15, 35, D1);
  (25, 35, 40, D2);
  (40, 35, 25, DT)
]%Q.

(** ** The fault catalogue: [get_fault_details] (lines 184-197) *)

Definition details : gmap string (string * string * string) :=
  list_to_map [
    ("PD", ("Descargas Parciales", "Descargas tipo corona, posibles vacíos en el aislamiento sólido o burbujas de gas en el aceite.", "Revisar nivel de aceite, buscar ruidos ultrasónicos."));
    ("T1", ("Falla Térmica < 300°C", "Sobrecarga del papel o aceite, conexiones oxidadas pero de baja temperatura.", "Verificar historial de carga y estado del sistema de refrigeración."));
    ("T2", ("Falla Térmica 300°C - 700°C", "Carbonización del papel, contactos defectuosos, corrientes circulantes en el núcleo.", "Inspección termográfica externa, planificar mantenimiento."));
    ("T3", ("Falla Térmica > 700°C", "Puntos calientes severos, flujos de dispersión en tanque, cortocircuitos en el núcleo.", "Riesgo alto. Considerar desgasificación o inspección interna urgente."));
    ("D1", ("Descargas de Baja Energía", "Chispas (sparking), descargas continuas de baja corriente.", "Pruebas eléctricas (resistencia de aislamiento, TTR) recomendadas."));
    ("D2", ("Descargas de Alta Energía", "Arcos eléctricos severos (arcing), cortocircuitos francos entre espiras o a tierra.", "CRÍTICO. Sacar de servicio si la tasa de generación es alta. Análisis de furanos."));
    ("DT", ("Falla Térmica y Eléctrica", "Mezcla de fallas. Posible arco con punto caliente.", "Investigación profunda requerida."));
    ("N/A", ("Sin datos suficientes", "Ingrese valores mayores a 0", "-"));
    ("Fuera (suma ≠ 100%)", ("Fuera del triángulo", "Los % de CH4, C2H4 y C2H2 deben sumar 100%.", "Verifique o normalice los valores."))
  ].

Definition detalle_desconocido : string * string * string :=
  ("Desconocido", "Zona no clasificada", "Revisar datos").

Definition get_fault_details (code : string) : string * string * string :=
  default detalle_desconocido (details !! code).

(** ** The sidebar: from the form to the classifier (lines 313-344) *)




Definition suma3 (pct : Q * Q * Q) : Q :=
  let '(a, b, c) := pct in (a + b + c)%Q.

(** ** The IEEE tab: the three steps chained (lines 443-476) *)

Definition age_map : gmap string string :=
  list_to_map [("Desconocida", "desc"); ("1–9 años", "1_9");
               ("10–30 años", "10_30"); (">30 años", "30")].

(** What the tab ends up showing: [age_map[age_sel]] raises [KeyError] on
    a label that is not in the map; without a usable ratio no condition is
    computed; otherwise the triple of step 3. *)
Inductive pantalla : Type :=
  | KeyError
  | SinRatio
  | Condicion (c : Z * string * string).

(** [if ieee_n2 and ieee_n2 > 0] guards step 1, [if ratio_key] (a key that
    is neither [None] nor the empty string) guards steps 2 and 3. *)
Definition pestana_ieee (ieee_o2 ieee_n2 : Q) (age_sel : string)
    (valores_ieee : gmap string Q) : pantalla :=
  let ratio_key :=
    if negb (Py.eq ieee_n2 0) && Py.gt ieee_n2 0 then
      fst (ieee_paso1_clasificar_sistema (Some ieee_o2) (Some ieee_n2))
    else None in
  match age_map !! age_sel with
  | None => KeyError
  | Some age_key =>
      match ratio_key with
      | None => SinRatio
      | Some k =>
          if String.eqb k "" then SinRatio
          else
            let '(p90, p95) := ieee_obtener_limites ratio_key age_key in
            Condicion (ieee_paso3_condicion valores_ieee p90 p95)
      end
  end.

(** * Properties *)

(** ** The comparisons as propositions *)

Module PyFacts.

Lemma le_spec a b : Py.le a b = true <-> (a <= b)%Q.
Proof. apply Qle_bool_iff. Qed.

Lemma ge_spec a b : Py.ge a b = true <-> (b <= a)%Q.
Proof. apply Qle_bool_iff. Qed.

Lemma lt_spec a b : Py.lt a b = true <-> (a < b)%Q.
Proof.
  unfold Py.lt. rewrite negb_true_iff, <- not_true_iff_false, Qle_bool_iff.
  split; [apply Qnot_le_lt | apply Qlt_not_le].
Qed.

Lemma gt_spec a b : Py.gt a b = true <-> (b < a)%Q.
Proof. apply (lt_spec b a). Qed.

Lemma eq_spec a b : Py.eq a b = true <-> (a == b)%Q.
Proof. apply Qeq_bool_iff. Qed.

Lemma le_false a b : Py.le a b = false <-> (b < a)%Q.
Proof.
  unfold Py.le. rewrite <- not_true_iff_false, Qle_bool_iff.
  split; [apply Qnot_le_lt | apply Qlt_not_le].
Qed.

Lemma ge_false a b : Py.ge a b = false <-> (a < b)%Q.
Proof. apply (le_false b a). Qed.

Lemma lt_false a b : Py.lt a b = false <-> (b <= a)%Q.
Proof. unfold Py.lt. rewrite negb_false_iff. apply Qle_bool_iff. Qed.

Lemma gt_false a b : Py.gt a b = false <-> (a <= b)%Q.
Proof. apply (lt_false b a). Qed.

Lemma eq_false a b : Py.eq a b = false <-> ~ (a == b)%Q.
Proof.
  unfold Py.eq. rewrite <- not_true_iff_false, Qeq_bool_iff. reflexivity.
Qed.

(** [x or 0] is the value with 0 for a missing one. *)
Lemma or0_default x : (Py.or0 x == default 0 x)%Q.
Proof.
  destruct x as [v|]; simpl; [|reflexivity].
  destruct (Py.eq v 0) eqn:E; [|reflexivity].
  apply eq_spec in E. symmetry. exact E.
Qed.

End PyFacts.

(** ** The point classifier *)

(** Decide every comparison on numbers that occurs in the goal by linear
    arithmetic over the hypotheses, and rewrite it to its truth value. *)
Ltac decide_cmp :=
  repeat match goal with
  | |- context [Py.le ?a ?b] =>
      first [ rewrite (proj2 (PyFacts.le_spec a b)) by lra
            | rewrite (proj2 (PyFacts.le_false a b)) by lra ]
  | |- context [Py.lt ?a ?b] =>
      first [ rewrite (proj2 (PyFacts.lt_spec a b)) by lra
            | rewrite (proj2 (PyFacts.lt_false a b)) by lra ]
  | |- context [Py.ge ?a ?b] =>
      first [ rewrite (proj2 (PyFacts.ge_spec a b)) by lra
            | rewrite (proj2 (PyFacts.ge_false a b)) by lra ]
  | |- context [Py.gt ?a ?b] =>
      first [ rewrite (proj2 (PyFacts.gt_spec a b)) by lra
            | rewrite (proj2 (PyFacts.gt_false a b)) by lra ]
  end.

Lemma Qabs_le_iff (x e : Q) : (Qabs x <= e <-> - e <= x <= e)%Q.
Proof. apply Qabs_Qle_condition. Qed.

(** The three ways out of [clasificar_duval], by the two checks on the sum. *)
Lemma clasificar_duval_suma_cero ch4 c2h4 c2h2 :
  (ch4 + c2h4 + c2h2 == 0)%Q -> clasificar_duval ch4 c2h4 c2h2 = NA.
Proof.
  intros H. unfold clasificar_duval.
  now rewrite (proj2 (PyFacts.eq_spec _ _) H).
Qed.

Lemma clasificar_duval_fuera ch4 c2h4 c2h2 :
  ~ (ch4 + c2h4 + c2h2 == 0)%Q ->
  (1 # 100 < Qabs (ch4 + c2h4 + c2h2 - 100))%Q ->
  clasificar_duval ch4 c2h4 c2h2 = Fuera.
Proof.
  intros H0 H1. unfold clasificar_duval.
  rewrite (proj2 (PyFacts.eq_false _ _) H0).
  now rewrite (proj2 (PyFacts.gt_spec _ _) H1).
Qed.

Lemma clasificar_duval_tabla ch4 c2h4 c2h2 :
  ~ (ch4 + c2h4 + c2h2 == 0)%Q ->
  (Qabs (ch4 + c2h4 + c2h2 - 100) <= 1 # 100)%Q ->
  clasificar_duval ch4 c2h4 c2h2 = tabla_duval ch4 c2h4 c2h2.
Proof.
  intros H0 H1. unfold clasificar_duval.
  rewrite (proj2 (PyFacts.eq_false _ _) H0).
  now rewrite (proj2 (PyFacts.gt_false _ _) H1).
Qed.

(** The rule table never answers with a sentinel. *)
Lemma tabla_duval_zona ch4 c2h4 c2h2 :
  In (tabla_duval ch4 c2h4 c2h2) zonas.
Proof.
  unfold tabla_duval, zonas.
  repeat match goal with
         | |- context [if ?b then _ else _] => destruct b
         end; simpl; tauto.
Qed.

Lemma NA_no_zona : ~ In NA zonas.
Proof. simpl. intuition congruence. Qed.

Lemma Fuera_no_zona : ~ In Fuera zonas.
Proof. simpl. intuition congruence. Qed.

(** The nested conditionals of the code are the linear scan of the rule
    list of section 4.2 with [DT] as the default. *)
Lemma tabla_duval_primera_regla ch4 c2h4 c2h2 :
  tabla_duval ch4 c2h4 c2h2 = primera_regla reglas_seccion_4_2 DT ch4 c2h4 c2h2.
Proof. reflexivity. Qed.

(** C1: for every composition that passes the zero-sum check and whose sum
    is within 0.01 of 100, [clasificar_duval] returns the zone of the first
    rule of the ordered table of section 4.2 whose guard holds, and [DT]
    when none does.  In particular (10, 10, 80) is [D1], and (90, 5, 5) is
    [DT]: there the guards of the first seven rules (items 3 to 9) are all
    false and the guard of the eighth (item 10) holds. *)
Theorem clasificar_duval_orden_reglas :
  (forall ch4 c2h4 c2h2 : Q,
      ~ (ch4 + c2h4 + c2h2 == 0)%Q ->
      (Qabs (ch4 + c2h4 + c2h2 - 100) <= 1 # 100)%Q ->
      clasificar_duval ch4 c2h4 c2h2
      = primera_regla reglas_seccion_4_2 DT ch4 c2h4 c2h2)
  /\ map zona reglas_seccion_4_2 = [PD; T1; T2; T3; D1; D2; D2; DT; DT; DT]
  /\ clasificar_duval 10 10 80 = D1
  /\ clasificar_duval 90 5 5 = DT
  /\ map (fun r => guarda r 90 5 5) reglas_seccion_4_2
     = [false; false; false; false; false; false; false; true; false; false].
Proof.
  split; [|repeat split; reflexivity].
  intros ch4 c2h4 c2h2 H0 H1.
  rewrite clasificar_duval_tabla by assumption.
  apply tabla_duval_primera_regla.
Qed.

Lemma clasificar_duval_orden_reglas_witness :
  clasificar_duval 10 10 80 = primera_regla reglas_seccion_4_2 DT 10 10 80.
Proof.
  apply (proj1 clasificar_duval_orden_reglas 10 10 80)%Q.
  - intros H. vm_compute in H. discriminate H.
  - vm_compute. intros H. discriminate H.
Defined.

(** C5: whenever the three percentages sum to 100 and CH4 is at least 98,
    the classifier returns [PD]. *)
Theorem clasificar_duval_PD (ch4 c2h4 c2h2 : Q) :
  (ch4 + c2h4 + c2h2 == 100)%Q -> (98 <= ch4)%Q ->
  clasificar_duval ch4 c2h4 c2h2 = PD.
Proof.
  intros Hs H98.
  rewrite clasificar_duval_tabla.
  - unfold tabla_duval. now rewrite (proj2 (PyFacts.ge_spec _ _) H98).
  - rewrite Hs. intros H. vm_compute in H. discriminate H.
  - apply Qabs_le_iff. lra.
Qed.

Lemma clasificar_duval_PD_witness : clasificar_duval 98 1 1 = PD.
Proof.
  apply (clasificar_duval_PD 98 1 1)%Q.
  - reflexivity.
  - vm_compute. intros H. discriminate H.
Defined.

(** C7: malformed input comes back as a sentinel value: (0, 0, 0) is
    [N/A], decided before the sum is compared with 100, and (50, 50, 0.5)
    is out of range since |100.5 - 100| > 0.01.  The classifier is total:
    every input has a result, which is one of the nine codes, a sentinel
    exactly when one of the two checks on the sum fires and one of the seven
    zones otherwise. *)
Theorem clasificar_duval_total_sentinels :
  clasificar_duval 0 0 0 = NA
  /\ clasificar_duval 50 50 (1 # 2) = Fuera
  /\ (1 # 100 < Qabs (50 + 50 + (1 # 2) - 100))%Q
  /\ forall ch4 c2h4 c2h2 : Q,
       exists z : codigo,
         clasificar_duval ch4 c2h4 c2h2 = z
         /\ (z = NA <-> (ch4 + c2h4 + c2h2 == 0)%Q)
         /\ (z = Fuera <->
               ~ (ch4 + c2h4 + c2h2 == 0)%Q
               /\ (1 # 100 < Qabs (ch4 + c2h4 + c2h2 - 100))%Q)
         /\ (In z zonas <->
               ~ (ch4 + c2h4 + c2h2 == 0)%Q
               /\ (Qabs (ch4 + c2h4 + c2h2 - 100) <= 1 # 100)%Q).
Proof.
  repeat split; try reflexivity.
  intros ch4 c2h4 c2h2. eexists; split; [reflexivity|].
  pose proof (tabla_duval_zona ch4 c2h4 c2h2) as Hin.
  destruct (Qeq_dec (ch4 + c2h4 + c2h2) 0) as [H0|H0].
  - rewrite (clasificar_duval_suma_cero _ _ _ H0).
    split; [tauto|]. split.
    + split; [discriminate | tauto].
    + split; [intros Hc; destruct (NA_no_zona Hc) | tauto].
  - destruct (Qlt_le_dec (1 # 100) (Qabs (ch4 + c2h4 + c2h2 - 100))) as [H1|H1].
    + rewrite (clasificar_duval_fuera _ _ _ H0 H1).
      split; [split; [discriminate | tauto]|]. split; [tauto|].
      split; [intros Hc; destruct (Fuera_no_zona Hc)|].
      intros [_ Hle]. destruct (Qlt_not_le _ _ H1 Hle).
    + rewrite (clasificar_duval_tabla _ _ _ H0 H1).
      split; [|split].
      * split; [|tauto]. intros E. rewrite E in Hin. destruct (NA_no_zona Hin).
      * split.
        -- intros E. rewrite E in Hin. destruct (Fuera_no_zona Hin).
        -- intros [_ Hlt]. destruct (Qlt_not_le _ _ Hlt H1).
      * tauto.
Qed.

(** C10: the result is [N/A] exactly when the sum of the three inputs is
    zero, whatever the individual values: (-5, 5, 0) is [N/A] and not out
    of range, the zero test on the total coming first. *)
Theorem clasificar_duval_NA_iff_suma_cero :
  (forall ch4 c2h4 c2h2 : Q,
      clasificar_duval ch4 c2h4 c2h2 = NA <-> (ch4 + c2h4 + c2h2 == 0)%Q)
  /\ clasificar_duval (-5) 5 0 = NA
  /\ clasificar_duval (-5) 5 0 <> Fuera
  /\ (1 # 100 < Qabs (-5 + 5 + 0 - 100))%Q.
Proof.
  split; [|repeat split; try reflexivity; intros H; vm_compute in H; discriminate H].
  intros ch4 c2h4 c2h2. split.
  - intros E. destruct (Qeq_dec (ch4 + c2h4 + c2h2) 0) as [H0|H0]; [exact H0|].
    exfalso. unfold clasificar_duval in E.
    rewrite (proj2 (PyFacts.eq_false _ _) H0) in E.
    destruct (Py.gt _ _); [discriminate E|].
    pose proof (tabla_duval_zona ch4 c2h4 c2h2) as Hin.
    rewrite E in Hin. destruct (NA_no_zona Hin).
  - apply clasificar_duval_suma_cero.
Qed.

(** ** The projection *)

(** On arrays the projection is the scalar one at every index. *)
Lemma tern2cart_v_lookup (ch4 c2h4 c2h2 : list Q) (i : nat) (m e a : Q) :
  ch4 !! i = Some m -> c2h4 !! i = Some e -> c2h2 !! i = Some a ->
  fst (tern2cart_v ch4 c2h4 c2h2) !! i = Some (fst (tern2cart m e a))
  /\ snd (tern2cart_v ch4 c2h4 c2h2) !! i = Some (snd (tern2cart m e a)).
Proof.
  intros Hm He _. unfold tern2cart_v, tern2cart. simpl. split.
  - rewrite lookup_zip_with, He. simpl. now rewrite Hm.
  - now rewrite list_lookup_fmap, Hm.
Qed.

(** The grid inverts the projection: projecting the composition recovered
    at [(x, y)] gives back [(x, y)]. *)
Lemma tern2cart_inversa (x y : Q) :
  punto_eq (tern2cart (ch4_g x y) (c2h4_g x y) (c2h2_g x y)) (x, y).
Proof.
  unfold punto_eq, tern2cart, ch4_g, c2h4_g. simpl. split; field.
Qed.

(** C8: the projection is x = c2h4/100 + ch4/200 and y = ch4/100 for every
    input, with no validation of the sum or the signs, so the three pure
    compositions land on the three vertices: CH4 on (0.5, 1), C2H4 on
    (1, 0) and C2H2 on (0, 0). *)
Theorem tern2cart_formula_vertices :
  (forall ch4 c2h4 c2h2 : Q,
      tern2cart ch4 c2h4 c2h2 = ((c2h4 / 100 + ch4 / 200)%Q, (ch4 / 100)%Q))
  /\ punto_eq (tern2cart 100 0 0) (1 # 2, 1)%Q
  /\ punto_eq (tern2cart 0 100 0) (1, 0)%Q
  /\ punto_eq (tern2cart 0 0 100) (0, 0)%Q.
Proof.
  split; [reflexivity|].
  repeat split; reflexivity.
Qed.

(** ** The raster against the classifier *)

Lemma Qcinco (v a b c d : Q) :
  (v < a \/ (a <= v /\ v < b) \/ (b <= v /\ v < c) \/ (c <= v /\ v < d) \/ d <= v)%Q.
Proof.
  destruct (Qlt_le_dec v a); [tauto|].
  destruct (Qlt_le_dec v b); [tauto|].
  destruct (Qlt_le_dec v c); [tauto|].
  destruct (Qlt_le_dec v d); tauto.
Qed.

(** Cell [(i, j)] of the raster is [zona_celda] at the sample coordinates. *)
Lemma raster_lookup (n i j : nat) (x y : Q) :
  eje n !! i = Some x -> eje n !! j = Some y ->
  raster n !! j ≫= (.!! i) = Some (zona_celda x y).
Proof.
  intros Hx Hy. unfold raster. cbv zeta.
  rewrite list_lookup_fmap, Hy. simpl.
  now rewrite list_lookup_fmap, Hx.
Qed.

Lemma zona_celda_fuera (x y : Q) :
  inside x y = false -> zona_celda x y = None.
Proof.
  intros H. unfold zona_celda. rewrite H. now destruct (Z_celda x y).
Qed.

(** What the eleven assignments leave in an inside cell, at any plane
    point: the classifier's zone, except where CH4 is at least 98.  There
    the assignment for [PD] is made first and then overwritten by the one
    for [T1], whose mask covers the whole [PD] corner of the triangle. *)
Theorem zona_celda_inside (x y : Q) :
  inside x y = true ->
  zona_celda x y
  = Some (if Py.ge (ch4_g x y) 98 then T1
          else clasificar_duval (ch4_g x y) (c2h4_g x y) (c2h2_g x y)).
Proof.
  intros Hin. unfold zona_celda, Z_celda. rewrite Hin.
  rewrite clasificar_duval_tabla.
  2:{ unfold c2h2_g. intros H. lra. }
  2:{ unfold c2h2_g. apply Qabs_le_iff. lra. }
  unfold inside in Hin.
  apply andb_prop in Hin as [Hin H22]. apply andb_prop in Hin as [H4 H24].
  apply PyFacts.ge_spec in H22, H4, H24.
  unfold tabla_duval. unfold c2h2_g in *.
  revert H22 H4 H24.
  generalize (ch4_g x y) (c2h4_g x y). intros c4 c24 H22 H4 H24.
  destruct (Qlt_le_dec c4 98) as [H98|H98];
    destruct (Qcinco c24 20 23 40 50) as [?|[[? ?]|[[? ?]|[[? ?]|?]]]];
    destruct (Qcinco (100 - c4 - c24) 4 13 15 29) as [?|[[? ?]|[[? ?]|[[? ?]|?]]]];
    try (exfalso; lra);
    decide_cmp; reflexivity.
Qed.

Lemma zona_celda_inside_witness :
  zona_celda (1 # 2) (1 # 2)
  = Some (if Py.ge (ch4_g (1 # 2) (1 # 2)) 98 then T1
          else clasificar_duval (ch4_g (1 # 2) (1 # 2)) (c2h4_g (1 # 2) (1 # 2))
                                (c2h2_g (1 # 2) (1 # 2))).
Proof. apply (zona_celda_inside (1 # 2) (1 # 2)). reflexivity. Defined.

(** C2 (the code departs from it): the program's raster has 120 samples
    per axis.  Sample 59 on the x axis and sample 117 on the y axis give a
    cell well inside the triangle and inside the [PD] corner
    (CH4 about 98.32, C2H4 about 0.42, C2H2 about 1.26, each further than
    0.3 from every boundary value of the table): the point classifier says
    [PD] for that composition, the raster paints the cell as [T1]. *)
Theorem raster_PD_pintado_T1 :
  exists x y : Q,
    eje n_malla !! 59%nat = Some x
    /\ eje n_malla !! 117%nat = Some y
    /\ inside x y = true
    /\ (983 # 10 < ch4_g x y)%Q
    /\ (4 # 10 < c2h4_g x y < 5 # 10)%Q
    /\ (12 # 10 < c2h2_g x y < 13 # 10)%Q
    /\ raster n_malla !! 117%nat ≫= (.!! 59%nat) = Some (Some T1)
    /\ clasificar_duval (ch4_g x y) (c2h4_g x y) (c2h2_g x y) = PD.
Proof.
  eexists. eexists.
  split; [reflexivity|]. split; [reflexivity|].
  split; [vm_compute; reflexivity|].
  split; [vm_compute; reflexivity|].
  split; [split; vm_compute; reflexivity|].
  split; [split; vm_compute; reflexivity|].
  split.
  - erewrite raster_lookup by reflexivity. vm_compute. reflexivity.
  - vm_compute. reflexivity.
Qed.

(** ** The screening condition *)

(** The loop only ever raises its two flags. *)
Lemma paso3_fold (valores_ppm p90 p95 : gmap string Q) (gs : list string) :
  forall st : bool * bool,
    fold_left (paso3_iter valores_ppm p90 p95) gs st
    = (fst st || algun_gas valores_ppm p95 gs,
       snd st || algun_gas valores_ppm p90 gs).
Proof.
  induction gs as [|g gs IH]; intros [a95 a90]; simpl.
  - now rewrite !orb_false_r.
  - rewrite IH. unfold paso3_iter, lectura, limite. simpl.
    destruct (Py.ge _ (Py.or0 (p95 !! g))), (Py.ge _ (Py.or0 (p90 !! g)));
      simpl; now rewrite ?orb_true_r.
Qed.

Lemma cond_num_eq (valores_ppm p90 p95 : gmap string Q) :
  cond_num valores_ppm p90 p95
  = if algun_gas valores_ppm p95 GASES_IEEE then 3%Z
    else if algun_gas valores_ppm p90 GASES_IEEE then 2%Z
    else 1%Z.
Proof.
  unfold cond_num, ieee_paso3_condicion.
  rewrite paso3_fold. cbn [fst snd orb].
  destruct (algun_gas valores_ppm p95 GASES_IEEE);
    destruct (algun_gas valores_ppm p90 GASES_IEEE); reflexivity.
Qed.

Lemma algun_gas_supera (valores_ppm p : gmap string Q) :
  algun_gas valores_ppm p GASES_IEEE = true <-> supera valores_ppm p.
Proof.
  unfold algun_gas, supera. rewrite existsb_exists.
  split; intros [g [Hg H]]; exists g; (split; [exact Hg|]);
    now apply PyFacts.ge_spec.
Qed.

Lemma cond_num_3 (valores_ppm p90 p95 : gmap string Q) :
  cond_num valores_ppm p90 p95 = 3%Z <-> supera valores_ppm p95.
Proof.
  rewrite cond_num_eq, <- algun_gas_supera.
  destruct (algun_gas valores_ppm p95 GASES_IEEE);
    destruct (algun_gas valores_ppm p90 GASES_IEEE);
    split; congruence.
Qed.

Lemma cond_num_2 (valores_ppm p90 p95 : gmap string Q) :
  cond_num valores_ppm p90 p95 = 2%Z
  <-> ~ supera valores_ppm p95 /\ supera valores_ppm p90.
Proof.
  rewrite cond_num_eq, <- !algun_gas_supera.
  destruct (algun_gas valores_ppm p95 GASES_IEEE);
    destruct (algun_gas valores_ppm p90 GASES_IEEE);
    split; try congruence; intuition congruence.
Qed.

Lemma cond_num_1 (valores_ppm p90 p95 : gmap string Q) :
  cond_num valores_ppm p90 p95 = 1%Z
  <-> ~ supera valores_ppm p95 /\ ~ supera valores_ppm p90.
Proof.
  rewrite cond_num_eq, <- !algun_gas_supera.
  destruct (algun_gas valores_ppm p95 GASES_IEEE);
    destruct (algun_gas valores_ppm p90 GASES_IEEE);
    split; try congruence; intuition congruence.
Qed.

(** C4: the condition is one of three levels, the maximum severity over
    the seven gases, with inclusive comparisons: 3 (alert) exactly when
    some gas reaches its P95 limit; otherwise 2 (caution) exactly when some
    gas reaches its P90 limit; otherwise 1 (normal).  With the row of the
    sealed regime at unknown age (CH4: P90 = 90, P95 = 150) every panel
    whose CH4 reading is 150 is in alert, because 150 >= 150. *)
Theorem cond_num_maxima_severidad :
  (forall valores_ppm p90 p95 : gmap string Q,
      (cond_num valores_ppm p90 p95 = 3%Z <-> supera valores_ppm p95)
      /\ (cond_num valores_ppm p90 p95 = 2%Z
          <-> ~ supera valores_ppm p95 /\ supera valores_ppm p90)
      /\ (cond_num valores_ppm p90 p95 = 1%Z
          <-> ~ supera valores_ppm p95 /\ ~ supera valores_ppm p90)
      /\ (cond_num valores_ppm p90 p95 = 3%Z
          \/ cond_num valores_ppm p90 p95 = 2%Z
          \/ cond_num valores_ppm p90 p95 = 1%Z))
  /\ p90_sellado_desc !! "CH4" = Some 90%Q
  /\ p95_sellado_desc !! "CH4" = Some 150%Q
  /\ (forall valores_ppm : gmap string Q,
        ieee_paso3_condicion (<["CH4" := 150%Q]> valores_ppm)
          p90_sellado_desc p95_sellado_desc
        = (3%Z, "Condición 3 (Alta/Alerta)",
           "Los gases superan el percentil 95. Alta probabilidad de falla activa o reciente; se requiere investigación inmediata.")).
Proof.
  split; [|split; [|split]].
  - intros v p90 p95.
    split; [apply cond_num_3|]. split; [apply cond_num_2|].
    split; [apply cond_num_1|].
    rewrite cond_num_eq.
    destruct (algun_gas v p95 GASES_IEEE); [tauto|].
    destruct (algun_gas v p90 GASES_IEEE); tauto.
  - vm_compute. reflexivity.
  - vm_compute. reflexivity.
  - intros v.
    assert (H : algun_gas (<["CH4" := 150%Q]> v) p95_sellado_desc GASES_IEEE = true).
    { apply algun_gas_supera. exists "CH4". split; [simpl; tauto|].
      unfold lectura. rewrite lookup_insert_eq.
      vm_compute. discriminate. }
    unfold ieee_paso3_condicion. rewrite paso3_fold, H. reflexivity.
Qed.

(** ** The preservation regime *)

Lemma paso1_sin_n2 (o2_ppm : option Q) :
  ieee_paso1_clasificar_sistema o2_ppm None = (None, None).
Proof. reflexivity. Qed.

Lemma paso1_n2_cero (o2_ppm : option Q) (n2 : Q) :
  (n2 == 0)%Q -> ieee_paso1_clasificar_sistema o2_ppm (Some n2) = (None, None).
Proof.
  intros H. unfold ieee_paso1_clasificar_sistema.
  now rewrite (proj2 (PyFacts.eq_spec _ _) H).
Qed.

Lemma paso1_ratio (o2_ppm : option Q) (n2 : Q) :
  ~ (n2 == 0)%Q ->
  regimen o2_ppm (Some n2)
  = if Py.le (Py.or0 o2_ppm / n2) (2 # 10) then Some "leq02" else Some "gt02".
Proof.
  intros H. unfold regimen, ieee_paso1_clasificar_sistema.
  rewrite (proj2 (PyFacts.eq_false _ _) H).
  now destruct (Py.le _ _).
Qed.

Lemma or0_Some (v : Q) : (Py.or0 (Some v) == v)%Q.
Proof. apply (PyFacts.or0_default (Some v)). Qed.

(** C6: step 1 answers unknown (no key) when N2 is absent or zero;
    otherwise it answers sealed exactly when O2/N2 <= 0.2, the boundary
    included, and free breathing exactly when O2/N2 > 0.2 (an absent O2
    counts as 0).  So (20, 100) is sealed, (21, 100) is free breathing and
    (5, 0) is unknown. *)
Theorem ieee_paso1_regimen :
  (forall o2_ppm : option Q, regimen o2_ppm None = None)
  /\ (forall (o2_ppm : option Q) (n2 : Q),
        (n2 == 0)%Q -> regimen o2_ppm (Some n2) = None)
  /\ (forall o2 n2 : Q,
        ~ (n2 == 0)%Q ->
        (regimen (Some o2) (Some n2) = Some "leq02" <-> (o2 / n2 <= 2 # 10)%Q)
        /\ (regimen (Some o2) (Some n2) = Some "gt02" <-> (2 # 10 < o2 / n2)%Q))
  /\ (forall n2 : Q, ~ (n2 == 0)%Q -> regimen None (Some n2) = Some "leq02")
  /\ regimen (Some 20%Q) (Some 100%Q) = Some "leq02"
  /\ regimen (Some 21%Q) (Some 100%Q) = Some "gt02"
  /\ regimen (Some 5%Q) (Some 0%Q) = None.
Proof.
  split; [reflexivity|].
  split. { intros o2 n2 H. unfold regimen. now rewrite paso1_n2_cero. }
  split.
  { intros o2 n2 H. rewrite (paso1_ratio _ _ H).
    assert (E : (Py.or0 (Some o2) / n2 == o2 / n2)%Q)
      by now rewrite or0_Some.
    destruct (Py.le (Py.or0 (Some o2) / n2) (2 # 10)) eqn:L.
    - apply PyFacts.le_spec in L. rewrite E in L.
      split; split; try tauto; try congruence.
      intros Hlt. destruct (Qlt_not_le _ _ Hlt L).
    - apply PyFacts.le_false in L. rewrite E in L.
      split; split; try tauto; try congruence.
      intros Hle. destruct (Qlt_not_le _ _ L Hle). }
  split.
  { intros n2 H. rewrite (paso1_ratio _ _ H).
    assert (L : Py.le (Py.or0 None / n2) (2 # 10) = true).
    { apply PyFacts.le_spec. simpl Py.or0. unfold Qdiv. rewrite Qmult_0_l.
      discriminate. }
    now rewrite L. }
  repeat split; reflexivity.
Qed.

Lemma ieee_paso1_regimen_witness :
  (regimen (Some 20%Q) (Some 100%Q) = Some "leq02" <-> (20 / 100 <= 2 # 10)%Q)
  /\ (regimen (Some 20%Q) (Some 100%Q) = Some "gt02" <-> (2 # 10 < 20 / 100)%Q).
Proof.
  apply (proj1 (proj2 (proj2 ieee_paso1_regimen)) 20 100)%Q.
  intros H. vm_compute in H. discriminate H.
Defined.

(** ** Missing readings and missing limits *)

Lemma lectura_ausente (valores_ppm : gmap string Q) (g : string) :
  valores_ppm !! g = None -> lectura valores_ppm g = 0%Q.
Proof. intros H. unfold lectura. now rewrite H. Qed.

Lemma limite_ausente (p : gmap string Q) (g : string) :
  p !! g = None -> limite p g = 0%Q.
Proof. intros H. unfold limite. now rewrite H. Qed.

(** A panel with no reading below its limits is normal. *)
Lemma cond_num_normal (valores_ppm p90 p95 : gmap string Q) :
  (forall g, In g GASES_IEEE ->
     (lectura valores_ppm g < limite p90 g)%Q
     /\ (lectura valores_ppm g < limite p95 g)%Q) ->
  cond_num valores_ppm p90 p95 = 1%Z.
Proof.
  intros H. apply cond_num_1.
  split; intros [g [Hg Hle]]; destruct (H g Hg) as [H90 H95];
    [exact (Qlt_not_le _ _ H95 Hle) | exact (Qlt_not_le _ _ H90 Hle)].
Qed.

(** The all-zero panel is normal against the complete rows of the sealed
    regime at unknown age, and in alert as soon as the limits of one gas
    are missing from them; against two empty rows it is in alert as well.
    So it is not the case that a panel is only ever flagged by a gas whose
    limit is present. *)
Lemma limite_ausente_contraejemplo :
  cond_num panel_cero p90_sellado_desc p95_sellado_desc = 1%Z
  /\ p90_sin_CH4 !! "CH4" = None
  /\ p95_sin_CH4 !! "CH4" = None
  /\ cond_num panel_cero p90_sin_CH4 p95_sin_CH4 = 3%Z
  /\ cond_num panel_cero ∅ ∅ = 3%Z
  /\ ~ (forall valores_ppm p90 p95 : gmap string Q,
          cond_num valores_ppm p90 p95 <> 1%Z ->
          exists g, In g GASES_IEEE
                    /\ (is_Some (p95 !! g) \/ is_Some (p90 !! g))).
Proof.
  split; [vm_compute; reflexivity|].
  split; [vm_compute; reflexivity|].
  split; [vm_compute; reflexivity|].
  split; [vm_compute; reflexivity|].
  split; [vm_compute; reflexivity|].
  intros H. destruct (H panel_cero ∅ ∅) as [g [_ [[v Hv]|[v Hv]]]].
  - vm_compute. discriminate.
  - rewrite lookup_empty in Hv. discriminate Hv.
  - rewrite lookup_empty in Hv. discriminate Hv.
Qed.

(** C3 (as the code has it): a missing reading counts as 0 and a missing
    limit counts as 0.  The comparison being [reading >= limit], a gas
    whose P95 limit is missing puts the panel in alert whenever its reading
    is at least 0, and a gas whose P90 limit is missing rules out the
    normal condition in the same way; a gas with a missing limit stays
    silent only when its reading is negative. *)
Theorem limite_ausente_cuenta_como_cero
    (valores_ppm p90 p95 : gmap string Q) (g : string) :
  In g GASES_IEEE ->
  (valores_ppm !! g = None -> lectura valores_ppm g = 0%Q)
  /\ (p95 !! g = None -> limite p95 g = 0%Q)
  /\ (p90 !! g = None -> limite p90 g = 0%Q)
  /\ (p95 !! g = None -> (0 <= lectura valores_ppm g)%Q ->
      cond_num valores_ppm p90 p95 = 3%Z)
  /\ (p90 !! g = None -> (0 <= lectura valores_ppm g)%Q ->
      cond_num valores_ppm p90 p95 = 3%Z \/ cond_num valores_ppm p90 p95 = 2%Z)
  /\ (forall p : gmap string Q,
        p !! g = None -> (lectura valores_ppm g < 0)%Q ->
        Py.ge (lectura valores_ppm g) (limite p g) = false).
Proof.
  intros Hg.
  split; [apply lectura_ausente|].
  split; [apply limite_ausente|].
  split; [apply limite_ausente|].
  split; [|split].
  - intros H95 Hv. apply cond_num_3. exists g. split; [exact Hg|].
    now rewrite (limite_ausente _ _ H95).
  - intros H90 Hv.
    assert (S90 : supera valores_ppm p90).
    { exists g. split; [exact Hg|]. now rewrite (limite_ausente _ _ H90). }
    rewrite cond_num_eq.
    destruct (algun_gas valores_ppm p95 GASES_IEEE); [now left|].
    right. apply algun_gas_supera in S90. now rewrite S90.
  - intros p Hp Hv. apply PyFacts.ge_false. now rewrite (limite_ausente _ _ Hp).
Qed.

Lemma limite_ausente_cuenta_como_cero_witness :
  cond_num panel_cero p90_sin_CH4 p95_sin_CH4 = 3%Z.
Proof.
  apply (limite_ausente_cuenta_como_cero panel_cero p90_sin_CH4 p95_sin_CH4 "CH4").
  - simpl. tauto.
  - vm_compute. reflexivity.
  - vm_compute. discriminate.
Defined.

(** ** The all-zero panel *)

(** Every limit of the sixteen table rows is positive. *)
Lemma limites_positivos (ratio_key age_key g : string) :
  In ratio_key claves_ratio -> In age_key claves_edad -> In g GASES_IEEE ->
  (0 < limite (fst (ieee_obtener_limites (Some ratio_key) age_key)) g)%Q
  /\ (0 < limite (snd (ieee_obtener_limites (Some ratio_key) age_key)) g)%Q.
Proof.
  unfold claves_ratio, claves_edad, GASES_IEEE. simpl.
  intros Hr Ha Hg.
  repeat match goal with
         | H : _ \/ _ |- _ => destruct H as [H|H]
         | H : False |- _ => destruct H
         end; subst; split; vm_compute; reflexivity.
Qed.

(** With the unknown regime of step 1 the lookup finds no row at all, every
    limit counts as 0, and the all-zero panel is in alert. *)
Lemma panel_cero_regimen_desconocido :
  regimen (Some 5%Q) (Some 0%Q) = None
  /\ ieee_obtener_limites None "desc" = (∅, ∅)
  /\ cond_num panel_cero (fst (ieee_obtener_limites None "desc"))
                         (snd (ieee_obtener_limites None "desc")) = 3%Z
  /\ cond_num panel_cero (fst (ieee_obtener_limites None "desc"))
                         (snd (ieee_obtener_limites None "desc")) <> 1%Z.
Proof.
  split; [reflexivity|]. split; [reflexivity|].
  split; [vm_compute; reflexivity|].
  vm_compute. discriminate.
Qed.

(** C9 (as the code has it): a panel whose seven readings are all 0 (or
    missing) is normal against the rows of each regime that has rows, sealed
    or free breathing, at each of the four age brackets. *)
Theorem panel_cero_normal
    (ratio_key age_key : string) (valores_ppm : gmap string Q) :
  In ratio_key claves_ratio -> In age_key claves_edad ->
  (forall g, In g GASES_IEEE -> (lectura valores_ppm g == 0)%Q) ->
  cond_num valores_ppm
    (fst (ieee_obtener_limites (Some ratio_key) age_key))
    (snd (ieee_obtener_limites (Some ratio_key) age_key)) = 1%Z.
Proof.
  intros Hr Ha H0. apply cond_num_normal. intros g Hg.
  destruct (limites_positivos ratio_key age_key g Hr Ha Hg) as [H90 H95].
  rewrite (H0 g Hg). split; assumption.
Qed.

Lemma panel_cero_normal_witness :
  cond_num panel_cero
    (fst (ieee_obtener_limites (Some "gt02") "10_30"))
    (snd (ieee_obtener_limites (Some "gt02") "10_30")) = 1%Z.
Proof.
  apply (panel_cero_normal "gt02" "10_30" panel_cero).
  - simpl. tauto.
  - simpl. tauto.
  - intros g Hg. simpl in Hg.
    repeat match goal with
           | H : _ \/ _ |- _ => destruct H as [H|H]
           | H : False |- _ => destruct H
           end; subst; vm_compute; reflexivity.
Defined.

(** * Further properties of the code *)

(** ** The rule table as a partition *)

(** Split on the side of 98 for CH4 and on the five bands that the
    thresholds of the table cut for C2H4 and for C2H2. *)
Ltac bandas c4 c24 c22 :=
  destruct (Qlt_le_dec c4 98);
  destruct (Qcinco c24 20 23 40 50) as [?|[[? ?]|[[? ?]|[[? ?]|?]]]];
  destruct (Qcinco c22 4 13 15 29) as [?|[[? ?]|[[? ?]|[[? ?]|?]]]].

(** The ten explicit tests of lines 76-95 leave nothing over: whatever the
    three numbers, one of them holds, so the closing [return "DT"] of line
    96 is never the statement that answers, and replacing its value would
    change no result. *)
Theorem tabla_duval_exhaustiva (ch4 c2h4 c2h2 : Q) :
  existsb (fun r => guarda r ch4 c2h4 c2h2) reglas_seccion_4_2 = true
  /\ forall por_defecto : codigo,
       tabla_duval ch4 c2h4 c2h2
       = primera_regla reglas_seccion_4_2 por_defecto ch4 c2h4 c2h2.
Proof.
  split; [|intros d]; unfold tabla_duval; simpl;
    bandas ch4 c2h4 c2h2; decide_cmp; reflexivity.
Qed.

(** The region of each zone in closed form.  [PD] is CH4 >= 98; below 98
    every other zone is exactly the union of the guards of its own rules,
    so among the rules after the first the order of evaluation decides
    nothing. *)
Theorem tabla_duval_regiones (ch4 c2h4 c2h2 : Q) :
  (tabla_duval ch4 c2h4 c2h2 = PD <-> 98 <= ch4)%Q
  /\ (tabla_duval ch4 c2h4 c2h2 = T1 <-> ch4 < 98 /\ c2h2 < 4 /\ c2h4 < 20)%Q
  /\ (tabla_duval ch4 c2h4 c2h2 = T2
      <-> ch4 < 98 /\ c2h2 < 4 /\ 20 <= c2h4 /\ c2h4 < 50)%Q
  /\ (tabla_duval ch4 c2h4 c2h2 = T3 <-> ch4 < 98 /\ c2h2 < 15 /\ 50 <= c2h4)%Q
  /\ (tabla_duval ch4 c2h4 c2h2 = D1 <-> ch4 < 98 /\ 13 <= c2h2 /\ c2h4 < 23)%Q
  /\ (tabla_duval ch4 c2h4 c2h2 = D2
      <-> ch4 < 98 /\ 23 <= c2h4 /\ (29 <= c2h2 \/ (c2h4 < 40 /\ 13 <= c2h2)))%Q
  /\ (tabla_duval ch4 c2h4 c2h2 = DT
      <-> ch4 < 98
          /\ ((4 <= c2h2 /\ c2h2 < 13 /\ c2h4 < 50)
              \/ (13 <= c2h2 /\ c2h2 < 29 /\ 40 <= c2h4 /\ c2h4 < 50)
              \/ (15 <= c2h2 /\ c2h2 < 29 /\ 50 <= c2h4)))%Q.
Proof.
  unfold tabla_duval.
  bandas ch4 c2h4 c2h2; decide_cmp; cbn [andb];
    repeat split; intros; try discriminate; try reflexivity; lra.
Qed.

(** ** What the raster can show *)

(** An inside cell gets the rule table's zone, with [T1] in place of [PD]. *)
Lemma zona_celda_tabla (x y : Q) :
  inside x y = true ->
  zona_celda x y
  = Some (match tabla_duval (ch4_g x y) (c2h4_g x y) (c2h2_g x y) with
          | PD => T1
          | z => z
          end).
Proof.
  intros Hin. unfold zona_celda, Z_celda. rewrite Hin.
  unfold inside in Hin.
  apply andb_prop in Hin as [Hin H22]. apply andb_prop in Hin as [H4 H24].
  apply PyFacts.ge_spec in H22, H4, H24.
  unfold tabla_duval. unfold c2h2_g in *.
  revert H22 H4 H24.
  generalize (ch4_g x y) (c2h4_g x y). intros c4 c24 H22 H4 H24.
  bandas c4 c24 (100 - c4 - c24)%Q;
    try (exfalso; lra);
    decide_cmp; reflexivity.
Qed.

Lemma raster_lookup_inv (n i j : nat) (c : option codigo) :
  raster n !! j ≫= (.!! i) = Some c ->
  exists x y : Q,
    eje n !! i = Some x /\ eje n !! j = Some y /\ c = zona_celda x y.
Proof.
  unfold raster. cbv zeta. intros H.
  rewrite list_lookup_fmap in H.
  destruct (eje n !! j) as [y|] eqn:Hy; simpl in H; [|discriminate H].
  rewrite list_lookup_fmap in H.
  destruct (eje n !! i) as [x|] eqn:Hx; simpl in H; [|discriminate H].
  exists x, y. repeat split. congruence.
Qed.

(** Whatever the resolution, no cell of the raster is ever filled with the
    [PD] colour, nor with a sentinel: a filled cell is an inside cell and
    carries one of [T1], [T2], [T3], [D1], [D2], [DT]. *)
Theorem raster_sin_PD (n i j : nat) (z : codigo) :
  raster n !! j ≫= (.!! i) = Some (Some z) ->
  In z [T1; T2; T3; D1; D2; DT]
  /\ exists x y : Q,
       eje n !! i = Some x /\ eje n !! j = Some y /\ inside x y = true.
Proof.
  intros H. apply raster_lookup_inv in H as (x & y & Hx & Hy & Hz).
  destruct (inside x y) eqn:Hin.
  - split; [|now exists x, y].
    rewrite (zona_celda_tabla _ _ Hin) in Hz. injection Hz as ->.
    pose proof (tabla_duval_zona (ch4_g x y) (c2h4_g x y) (c2h2_g x y)) as Hzo.
    destruct (tabla_duval _ _ _); simpl in *; intuition congruence.
  - rewrite (zona_celda_fuera _ _ Hin) in Hz. discriminate Hz.
Qed.

Lemma raster_sin_PD_witness :
  In T1 [T1; T2; T3; D1; D2; DT]
  /\ exists x y : Q,
       eje n_malla !! 59%nat = Some x /\ eje n_malla !! 117%nat = Some y
       /\ inside x y = true.
Proof.
  apply (raster_sin_PD n_malla 59 117 T1).
  erewrite raster_lookup by reflexivity. vm_compute. reflexivity.
Defined.

(** ** The projection and its inverse *)






(** ** Sampling: [linspace] and the axes of the raster *)

Lemma length_linspace (a b : Q) (n : nat) : length (linspace a b n) = n.
Proof. unfold linspace. now rewrite length_map, length_seq. Qed.

Lemma linspace_lookup (a b : Q) (n i : nat) :
  (i < n)%nat ->
  linspace a b n !! i
  = Some (a + inject_Z (Z.of_nat i) * ((b - a) / inject_Z (Z.of_nat n - 1)))%Q.
Proof.
  intros H. unfold linspace.
  rewrite list_lookup_fmap, lookup_seq_lt by exact H. reflexivity.
Qed.

Lemma paso_cota (t m d : Q) :
  (0 <= t)%Q -> (t <= m)%Q -> (0 <= d)%Q -> (0 < m)%Q ->
  (0 <= t * (d / m) /\ t * (d / m) <= d)%Q.
Proof.
  intros Ht Htm Hd Hm.
  assert (Hq : (0 <= d / m)%Q).
  { apply Qle_shift_div_l; [exact Hm|]. now rewrite Qmult_0_l. }
  split.
  - now apply Qmult_le_0_compat.
  - assert (E : (d == m * (d / m))%Q).
    { field. intros E. rewrite E in Hm. now apply Qlt_irrefl in Hm. }
    rewrite E at 2. now apply Qmult_le_compat_r.
Qed.

Lemma linspace_cotas (a b : Q) (n i : nat) (v : Q) :
  (a <= b)%Q -> linspace a b n !! i = Some v -> (a <= v <= b)%Q.
Proof.
  intros Hab Hv.
  assert (Hi : (i < n)%nat).
  { apply lookup_lt_Some in Hv. now rewrite length_linspace in Hv. }
  rewrite (linspace_lookup _ _ _ _ Hi) in Hv. injection Hv as <-.
  destruct i as [|i].
  - change (inject_Z (Z.of_nat 0)) with 0%Q. lra.
  - assert (Hm : (0 < inject_Z (Z.of_nat n - 1))%Q).
    { change 0%Q with (inject_Z 0). rewrite <- Zlt_Qlt. lia. }
    destruct (paso_cota (inject_Z (Z.of_nat (S i))) (inject_Z (Z.of_nat n - 1))
                (b - a)) as [H0 H1]; try assumption.
    + change 0%Q with (inject_Z 0). rewrite <- Zle_Qle. lia.
    + rewrite <- Zle_Qle. lia.
    + lra.
    + lra.
Qed.

(** [np.linspace(a, b, n)] has [n] samples; the first is [a], the last is
    [b] when there are at least two, and with [a <= b] every sample lies
    between [a] and [b]. *)
Theorem linspace_extremos (a b : Q) (n : nat) :
  length (linspace a b n) = n
  /\ ((1 <= n)%nat -> exists v, linspace a b n !! 0%nat = Some v /\ (v == a)%Q)
  /\ ((2 <= n)%nat ->
      exists v, linspace a b n !! (n - 1)%nat = Some v /\ (v == b)%Q)
  /\ ((a <= b)%Q ->
      forall i v, linspace a b n !! i = Some v -> (a <= v <= b)%Q).
Proof.
  split; [apply length_linspace|]. split; [|split].
  - intros Hn. eexists. split; [apply linspace_lookup; lia|].
    change (inject_Z (Z.of_nat 0)) with 0%Q. lra.
  - intros Hn. eexists. split; [apply linspace_lookup; lia|].
    replace (Z.of_nat (n - 1)) with (Z.of_nat n - 1)%Z by lia.
    field. intros E.
    assert (Hm : (0 < inject_Z (Z.of_nat n - 1))%Q) 
      by (change 0%Q with (inject_Z 0); rewrite <- Zlt_Qlt; lia).
    rewrite E in Hm. now apply Qlt_irrefl in Hm.
  - intros Hab i v. now apply linspace_cotas.
Qed.

Lemma linspace_extremos_witness :
  exists v, linspace 0 2 50 !! 49%nat = Some v /\ (v == 2)%Q.
Proof.
  apply (proj1 (proj2 (proj2 (linspace_extremos 0 2 50)))). lia.
Defined.

(** Every sample of an axis of the raster is strictly between 0 and 1
    ("evitar 0 y 1"), whatever the resolution. *)
Theorem eje_abierto (n i : nat) (v : Q) :
  eje n !! i = Some v -> (0 < v < 1)%Q.
Proof.
  intros Hv. unfold eje in Hv.
  apply linspace_cotas in Hv; [lra|]. vm_compute. discriminate.
Qed.

Lemma eje_abierto_witness :
  (0 < (1 # 1000000)
       + inject_Z 59 * ((1 - (1 # 1000000) - (1 # 1000000)) / inject_Z (120 - 1))
     < 1)%Q.
Proof.
  apply (eje_abierto 120 59). reflexivity.
Defined.

(** ** The reference lines *)

Lemma segmento_ternario_CH4 (constante valor : Q) :
  (valor < 100)%Q ->
  segmento_ternario constante "CH4" valor
  = (map (fun _ => valor) (linspace 0 (100 - valor) 50),
     linspace 0 (100 - valor) 50,
     map (fun e => (100 - valor - e)%Q) (linspace 0 (100 - valor) 50)).
Proof.
  intros H. unfold segmento_ternario. simpl.
  now rewrite (proj2 (PyFacts.le_false _ _)) by lra.
Qed.

Lemma segmento_ternario_C2H4 (constante valor : Q) :
  (valor < 100)%Q ->
  segmento_ternario constante "C2H4" valor
  = (linspace 0 (100 - valor) 50,
     map (fun _ => valor) (linspace 0 (100 - valor) 50),
     map (fun m => (100 - valor - m)%Q) (linspace 0 (100 - valor) 50)).
Proof.
  intros H. unfold segmento_ternario. simpl.
  now rewrite (proj2 (PyFacts.le_false _ _)) by lra.
Qed.

Lemma segmento_ternario_C2H2 (constante valor : Q) :
  (valor < 100)%Q ->
  segmento_ternario constante "C2H2" valor
  = (linspace 0 (100 - valor) 50,
     map (fun m => (100 - valor - m)%Q) (linspace 0 (100 - valor) 50),
     map (fun _ => valor) (linspace 0 (100 - valor) 50)).
Proof.
  intros H. unfold segmento_ternario. simpl.
  now rewrite (proj2 (PyFacts.le_false _ _)) by lra.
Qed.

(** The free sample [t] of a segment and what the three arrays hold at an
    index below 50. *)
Lemma segmento_muestra (valor : Q) (i : nat) :
  (valor < 100)%Q -> (i < 50)%nat ->
  exists t : Q,
    linspace 0 (100 - valor) 50 !! i = Some t /\ (0 <= t <= 100 - valor)%Q.
Proof.
  intros Hv Hi. eexists. split; [apply linspace_lookup; exact Hi|].
  eapply linspace_cotas; [|apply linspace_lookup; exact Hi]. lra.
Qed.

Lemma segmento_punto (constante valor : Q) (tipo : string) (i : nat) :
  In tipo tipos_gas -> (valor < 100)%Q -> (i < 50)%nat ->
  exists p : Q * Q * Q,
    punto_segmento (segmento_ternario constante tipo valor) i = Some p
    /\ componente tipo p = valor
    /\ (suma3 p == 100)%Q
    /\ ((0 <= valor)%Q -> no_negativa p).
Proof.
  intros Ht Hv Hi.
  destruct (segmento_muestra valor i Hv Hi) as (t & Ht1 & Ht2).
  unfold tipos_gas in Ht. simpl in Ht.
  destruct Ht as [<-|[<-|[<-|[]]]];
    [ rewrite segmento_ternario_CH4 by exact Hv
    | rewrite segmento_ternario_C2H4 by exact Hv
    | rewrite segmento_ternario_C2H2 by exact Hv ];
    unfold punto_segmento;
    rewrite !list_lookup_fmap, Ht1; simpl;
    (eexists; split; [reflexivity|]); simpl;
    (split; [reflexivity|]); (split; [ring|]); intros H0; lra.
Qed.

Lemma segmento_sin_punto (constante valor : Q) (tipo : string) (i : nat) :
  In tipo tipos_gas -> (valor < 100)%Q -> (50 <= i)%nat ->
  punto_segmento (segmento_ternario constante tipo valor) i = None.
Proof.
  intros Ht Hv Hi.
  assert (HN : linspace 0 (100 - valor) 50 !! i = None).
  { apply lookup_ge_None. now rewrite length_linspace. }
  unfold tipos_gas in Ht. simpl in Ht.
  destruct Ht as [<-|[<-|[<-|[]]]];
    [ rewrite segmento_ternario_CH4 by exact Hv
    | rewrite segmento_ternario_C2H4 by exact Hv
    | rewrite segmento_ternario_C2H2 by exact Hv ];
    unfold punto_segmento;
    now rewrite !list_lookup_fmap, HN.
Qed.

(** For a gas name and a value below 100 the segment has 50 points; each
    of them sums to 100 and holds the named component at [valor]; with
    [valor >= 0] no component of a point is negative.  There is no point of
    index 50. *)
Theorem segmento_ternario_puntos (constante valor : Q) (tipo : string) (i : nat) :
  In tipo tipos_gas -> (valor < 100)%Q -> (i < 50)%nat ->
  punto_segmento (segmento_ternario constante tipo valor) 50 = None
  /\ exists p : Q * Q * Q,
       punto_segmento (segmento_ternario constante tipo valor) i = Some p
       /\ componente tipo p = valor
       /\ (suma3 p == 100)%Q
       /\ ((0 <= valor)%Q -> no_negativa p).
Proof.
  intros Ht Hv Hi. split.
  - now apply segmento_sin_punto.
  - now apply segmento_punto.
Qed.

Lemma segmento_ternario_puntos_witness :
  punto_segmento (segmento_ternario 98 "CH4" 98) 50 = None
  /\ exists p : Q * Q * Q,
       punto_segmento (segmento_ternario 98 "CH4" 98) 49 = Some p
       /\ componente "CH4" p = 98%Q
       /\ (suma3 p == 100)%Q
       /\ ((0 <= 98)%Q -> no_negativa p).
Proof.
  apply (segmento_ternario_puntos 98 98 "CH4" 49).
  - simpl. tauto.
  - reflexivity.
  - lia.
Defined.

(** Nothing is drawn for a value of 100 or more, nor for a name that is
    not one of the three gases: the three arrays are empty. *)
Theorem segmento_ternario_vacio (constante valor : Q) (tipo : string) :
  (100 <= valor)%Q \/ ~ In tipo tipos_gas ->
  segmento_ternario constante tipo valor = ([], [], []).
Proof.
  intros H. unfold segmento_ternario.
  destruct (String.eqb_spec tipo "CH4") as [E1|E1];
    [|destruct (String.eqb_spec tipo "C2H4") as [E2|E2];
      [|destruct (String.eqb_spec tipo "C2H2") as [E3|E3]]];
    try reflexivity;
    (destruct H as [H|H];
     [ now rewrite (proj2 (PyFacts.le_spec _ _)) by lra
     | exfalso; apply H; subst; simpl; tauto ]).
Qed.

Lemma segmento_ternario_vacio_witness :
  segmento_ternario 100 "C2H4" 100 = ([], [], []).
Proof.
  apply (segmento_ternario_vacio 100 100 "C2H4"). left. vm_compute. discriminate.
Defined.



(** ** From the form to the diagnosis *)















(** ** The fault catalogue *)

(** Every result of the classifier has an entry of its own in the
    catalogue, so a diagnosis is never described as "Desconocido"; the nine
    result strings are pairwise different; every other string gets the
    default entry. *)
Theorem get_fault_details_cubre :
  (forall ch4 c2h4 c2h2 : Q,
      is_Some (details !! codigo_str (clasificar_duval ch4 c2h4 c2h2))
      /\ get_fault_details (codigo_str (clasificar_duval ch4 c2h4 c2h2))
         <> detalle_desconocido)
  /\ (forall z z' : codigo, codigo_str z = codigo_str z' -> z = z')
  /\ (forall code : string,
        (forall z : codigo, code <> codigo_str z) ->
        get_fault_details code = detalle_desconocido).
Proof.
  split; [|split].
  - intros a b c. destruct (clasificar_duval a b c);
      (split; [vm_compute; eauto | vm_compute; intros H; discriminate H]).
  - intros z z' H. destruct z, z'; try reflexivity; vm_compute in H; discriminate H.
  - intros code H. unfold get_fault_details.
    assert (E : details !! code = None); [|now rewrite E].
    unfold details. apply not_elem_of_list_to_map_1. simpl.
    rewrite !not_elem_of_cons.
    repeat split; try apply not_elem_of_nil.
    + apply (H PD).
    + apply (H T1).
    + apply (H T2).
    + apply (H T3).
    + apply (H D1).
    + apply (H D2).
    + apply (H DT).
    + apply (H NA).
    + apply (H Fuera).
Qed.

Lemma get_fault_details_cubre_witness :
  get_fault_details "T4" = detalle_desconocido.
Proof.
  apply (proj2 (proj2 get_fault_details_cubre) "T4").
  intros z. destruct z; vm_compute; intros H; discriminate H.
Defined.

(** ** The condition as a function of the readings *)

Lemma supera_monotona (v v' p : gmap string Q) :
  (forall g, In g GASES_IEEE -> (lectura v g <= lectura v' g)%Q) ->
  supera v p -> supera v' p.
Proof.
  intros H [g [Hg Hle]]. exists g. split; [exact Hg|].
  eapply Qle_trans; [exact Hle | exact (H g Hg)].
Qed.

(** Raising readings never lowers the condition: if no gas of the panel
    reads less than before, the condition number is at least what it was,
    against any pair of rows. *)
Theorem cond_num_monotona (valores_ppm valores_ppm' p90 p95 : gmap string Q) :
  (forall g, In g GASES_IEEE ->
     (lectura valores_ppm g <= lectura valores_ppm' g)%Q) ->
  (cond_num valores_ppm p90 p95 <= cond_num valores_ppm' p90 p95)%Z.
Proof.
  intros H.
  pose proof (supera_monotona _ _ p95 H) as M95.
  pose proof (supera_monotona _ _ p90 H) as M90.
  rewrite <- !algun_gas_supera in M95, M90.
  rewrite !cond_num_eq.
  destruct (algun_gas valores_ppm p95 GASES_IEEE).
  - now rewrite M95.
  - destruct (algun_gas valores_ppm p90 GASES_IEEE).
    + rewrite M90 by reflexivity.
      destruct (algun_gas valores_ppm' p95 GASES_IEEE); lia.
    + destruct (algun_gas valores_ppm' p95 GASES_IEEE);
        [|destruct (algun_gas valores_ppm' p90 GASES_IEEE)]; lia.
Qed.

Lemma cond_num_monotona_witness :
  (cond_num panel_cero p90_sellado_desc p95_sellado_desc
   <= cond_num (<["CH4" := 150%Q]> panel_cero) p90_sellado_desc p95_sellado_desc)%Z.
Proof.
  apply (cond_num_monotona panel_cero (<["CH4" := 150%Q]> panel_cero)).
  intros g Hg. simpl in Hg.
  repeat match goal with
         | H : _ \/ _ |- _ => destruct H as [H|H]
         | H : False |- _ => destruct H
         end; subst; vm_compute; discriminate.
Defined.

Lemma algun_gas_ext (v v' p p' : gmap string Q) (gs : list string) :
  (forall g, In g gs ->
     (lectura v g == lectura v' g)%Q /\ (limite p g == limite p' g)%Q) ->
  algun_gas v p gs = algun_gas v' p' gs.
Proof.
  induction gs as [|g gs IH]; intros H; [reflexivity|].
  unfold algun_gas in *. simpl. rewrite IH by (intros; apply H; now right).
  destruct (H g) as [Hv Hp]; [now left|].
  unfold Py.ge. now rewrite Hv, Hp.
Qed.

(** Step 3 looks at the seven gases of [GASES_IEEE] and at nothing else:
    two calls whose readings and limits agree on those seven return the
    same triple, and an entry under any other key, in the panel or in a
    row, changes nothing. *)
Theorem ieee_paso3_solo_siete :
  (forall v v' p90 p90' p95 p95' : gmap string Q,
      (forall g, In g GASES_IEEE ->
         (lectura v g == lectura v' g)%Q
         /\ (limite p90 g == limite p90' g)%Q
         /\ (limite p95 g == limite p95' g)%Q) ->
      ieee_paso3_condicion v p90 p95 = ieee_paso3_condicion v' p90' p95')
  /\ (forall (v p90 p95 : gmap string Q) (k : string) (x : Q),
        ~ In k GASES_IEEE ->
        ieee_paso3_condicion (<[k := x]> v) p90 p95 = ieee_paso3_condicion v p90 p95
        /\ ieee_paso3_condicion v (<[k := x]> p90) p95 = ieee_paso3_condicion v p90 p95
        /\ ieee_paso3_condicion v p90 (<[k := x]> p95) = ieee_paso3_condicion v p90 p95).
Proof.
  assert (G : forall v v' p90 p90' p95 p95' : gmap string Q,
      (forall g, In g GASES_IEEE ->
         (lectura v g == lectura v' g)%Q
         /\ (limite p90 g == limite p90' g)%Q
         /\ (limite p95 g == limite p95' g)%Q) ->
      ieee_paso3_condicion v p90 p95 = ieee_paso3_condicion v' p90' p95').
  { intros v v' p90 p90' p95 p95' H. unfold ieee_paso3_condicion.
    rewrite !paso3_fold.
    rewrite (algun_gas_ext v v' p95 p95') by (intros g Hg; destruct (H g Hg); tauto).
    rewrite (algun_gas_ext v v' p90 p90') by (intros g Hg; destruct (H g Hg); tauto).
    reflexivity. }
  split; [exact G|].
  intros v p90 p95 k x Hk.
  assert (L : forall (m : gmap string Q) g, In g GASES_IEEE ->
                <[k := x]> m !! g = m !! g).
  { intros m g Hg. apply lookup_insert_ne. intros ->. exact (Hk Hg). }
  repeat split; apply G; intros g Hg; unfold lectura, limite;
    rewrite ?(L _ g Hg); repeat split; reflexivity.
Qed.

Lemma ieee_paso3_solo_siete_witness :
  ieee_paso3_condicion (<["O2" := 5000%Q]> panel_cero) p90_sellado_desc p95_sellado_desc
  = ieee_paso3_condicion panel_cero p90_sellado_desc p95_sellado_desc.
Proof.
  apply (proj2 ieee_paso3_solo_siete panel_cero p90_sellado_desc p95_sellado_desc
           "O2" 5000%Q).
  simpl. intros H.
  repeat match goal with
         | H : _ \/ _ |- _ => destruct H as [H|H]
         | H : False |- _ => destruct H
         end; discriminate H.
Defined.

(** ** The table lookup *)

Lemma buscar_sin_clave (tabla : gmap string (gmap string (gmap string Q)))
    (age_key : string) :
  buscar tabla None age_key = ∅.
Proof. unfold buscar. now rewrite lookup_empty. Qed.

Lemma tablas_ratio_desconocido (k : string) :
  ~ In k claves_ratio -> TABLA_P90 !! k = None /\ TABLA_P95 !! k = None.
Proof.
  intros H. unfold claves_ratio in H. simpl in H.
  split; apply not_elem_of_list_to_map_1; simpl;
    rewrite !not_elem_of_cons; repeat split;
    try apply not_elem_of_nil; intros ->; tauto.
Qed.

Lemma tablas_edad_desconocida (k age_key : string) :
  In k claves_ratio -> ~ In age_key claves_edad ->
  buscar TABLA_P90 (Some k) age_key = ∅ /\ buscar TABLA_P95 (Some k) age_key = ∅.
Proof.
  intros Hk Ha. unfold claves_edad in Ha. simpl in Ha.
  assert (N : forall (r1 r2 r3 r4 : gmap string Q),
             (<["desc" := r1]> (<["1_9" := r2]> (<["10_30" := r3]>
                (<["30" := r4]> (list_to_map [])))) : gmap string (gmap string Q))
             !! age_key = None).
  { intros. rewrite !lookup_insert_ne by (intros <-; tauto).
    apply lookup_empty. }
  unfold claves_ratio in Hk. simpl in Hk.
  destruct Hk as [<-|[<-|[]]]; unfold buscar, TABLA_P90, TABLA_P95;
    rewrite !list_to_map_cons;
    rewrite ?lookup_insert_eq, ?(lookup_insert_ne _ "leq02" "gt02") by discriminate;
    rewrite ?lookup_insert_eq; simpl; now rewrite !N.
Qed.

(** Step 2 finds a row exactly for the two ratio keys and the four age
    keys of the tables.  For those, both rows hold a limit for each of the
    seven gases and for nothing else, every limit is positive, and the P90
    limit is below the P95 limit for every gas.  For any other pair of keys
    (the key [None] of an undefined ratio included) both rows are empty and
    nothing is raised. *)
Theorem ieee_obtener_limites_filas :
  (forall ratio_key age_key : string,
      In ratio_key claves_ratio -> In age_key claves_edad ->
      dom (fst (ieee_obtener_limites (Some ratio_key) age_key))
      = list_to_set GASES_IEEE
      /\ dom (snd (ieee_obtener_limites (Some ratio_key) age_key))
         = list_to_set GASES_IEEE
      /\ forall g, In g GASES_IEEE ->
           exists l90 l95 : Q,
             fst (ieee_obtener_limites (Some ratio_key) age_key) !! g = Some l90
             /\ snd (ieee_obtener_limites (Some ratio_key) age_key) !! g = Some l95
             /\ (0 < l90)%Q /\ (l90 < l95)%Q)
  /\ (forall (ratio_key : option string) (age_key : string),
        ~ (exists k, ratio_key = Some k /\ In k claves_ratio
                     /\ In age_key claves_edad) ->
        ieee_obtener_limites ratio_key age_key = (∅, ∅)).
Proof.
  split.
  - intros rk ak Hr Ha. unfold claves_ratio, claves_edad in *. simpl in Hr, Ha.
    repeat match goal with
           | H : _ \/ _ |- _ => destruct H as [H|H]
           | H : False |- _ => destruct H
           end; subst;
      (split; [vm_compute; reflexivity|]); (split; [vm_compute; reflexivity|]);
      intros g Hg; simpl in Hg;
      repeat match goal with
             | H : _ \/ _ |- _ => destruct H as [H|H]
             | H : False |- _ => destruct H
             end; subst;
      eexists; eexists;
      (split; [vm_compute; reflexivity|]); (split; [vm_compute; reflexivity|]);
      split; reflexivity.
  - intros rk ak H. unfold ieee_obtener_limites.
    destruct rk as [k|]; [|now rewrite !buscar_sin_clave].
    destruct (In_dec String.string_dec k claves_ratio) as [Hk|Hk].
    + destruct (In_dec String.string_dec ak claves_edad) as [Ha|Ha].
      * exfalso. apply H. now exists k.
      * destruct (tablas_edad_desconocida k ak Hk Ha) as [-> ->]. reflexivity.
    + destruct (tablas_ratio_desconocido k Hk) as [E90 E95].
      unfold buscar. rewrite E90, E95. simpl. now rewrite lookup_empty.
Qed.

Lemma ieee_obtener_limites_filas_witness :
  ieee_obtener_limites (Some "leq02") "5_9" = (∅, ∅).
Proof.
  apply (proj2 ieee_obtener_limites_filas (Some "leq02") "5_9").
  intros (k & _ & _ & Ha). simpl in Ha.
  repeat match goal with
         | H : _ \/ _ |- _ => destruct H as [H|H]
         | H : False |- _ => destruct H
         end; discriminate Ha.
Defined.

(** ** The IEEE tab *)

Lemma ratio_sellado (o2 n2 : Q) :
  (0 < n2)%Q ->
  Py.le (Py.or0 (Some o2) / n2) (2 # 10) = true <-> (o2 <= (2 # 10) * n2)%Q.
Proof.
  intros Hn. rewrite PyFacts.le_spec.
  assert (E : (Py.or0 (Some o2) == o2)%Q) by apply (PyFacts.or0_default (Some o2)).
  rewrite E. split; intros H.
  - assert (E2 : (o2 == o2 / n2 * n2)%Q) by (field; lra).
    rewrite E2. apply Qmult_le_compat_r; [exact H | lra].
  - apply Qle_shift_div_r; assumption.
Qed.

Lemma age_map_valores (age_sel age_key : string) :
  age_map !! age_sel = Some age_key -> In age_key claves_edad.
Proof.
  intros H. unfold age_map in H.
  apply elem_of_list_to_map_2 in H.
  rewrite !elem_of_cons in H.
  destruct H as [H|[H|[H|[H|H]]]]; try (injection H as _ ->; simpl; tauto).
  now apply elem_of_nil in H.
Qed.

(** In the tab, once N2 is positive and the age label is one of the four
    of the selector, steps 2 and 3 always run on complete table rows: the
    ratio key is the sealed one exactly when O2 <= 0.2 N2, the free
    breathing one otherwise; what is shown is the result of step 3 against
    the rows of that key and of the age key of the label; and a panel whose
    seven readings are 0 is shown as condition 1. *)
Theorem pestana_ieee_filas (ieee_o2 ieee_n2 : Q) (age_sel : string)
    (valores_ieee : gmap string Q) :
  (0 < ieee_n2)%Q -> is_Some (age_map !! age_sel) ->
  exists ratio_key age_key : string,
    In ratio_key claves_ratio
    /\ In age_key claves_edad
    /\ age_map !! age_sel = Some age_key
    /\ (ratio_key = "leq02" <-> (ieee_o2 <= (2 # 10) * ieee_n2)%Q)
    /\ pestana_ieee ieee_o2 ieee_n2 age_sel valores_ieee
       = Condicion (ieee_paso3_condicion valores_ieee
                      (fst (ieee_obtener_limites (Some ratio_key) age_key))
                      (snd (ieee_obtener_limites (Some ratio_key) age_key)))
    /\ ((forall g, In g GASES_IEEE -> (lectura valores_ieee g == 0)%Q) ->
        cond_num valores_ieee
          (fst (ieee_obtener_limites (Some ratio_key) age_key))
          (snd (ieee_obtener_limites (Some ratio_key) age_key)) = 1%Z).
Proof.
  intros Hn [ak Hak].
  pose proof (age_map_valores _ _ Hak) as Hin.
  assert (Hpos : forall rk, In rk claves_ratio ->
            (forall g, In g GASES_IEEE -> (lectura valores_ieee g == 0)%Q) ->
            cond_num valores_ieee
              (fst (ieee_obtener_limites (Some rk) ak))
              (snd (ieee_obtener_limites (Some rk) ak)) = 1%Z).
  { intros rk Hrk H0. apply cond_num_normal. intros g Hg.
    destruct (limites_positivos rk ak g Hrk Hin Hg) as [H90 H95].
    rewrite (H0 g Hg). split; assumption. }
  unfold pestana_ieee. rewrite Hak.
  rewrite (proj2 (PyFacts.eq_false _ _)) by lra.
  rewrite (proj2 (PyFacts.gt_spec _ _) Hn). cbn [negb andb].
  unfold ieee_paso1_clasificar_sistema.
  rewrite (proj2 (PyFacts.eq_false _ _)) by lra.
  pose proof (ratio_sellado ieee_o2 ieee_n2 Hn) as R.
  destruct (Py.le (Py.or0 (Some ieee_o2) / ieee_n2) (2 # 10)) eqn:L.
  - exists "leq02", ak. cbn [fst String.eqb].
    split; [simpl; tauto|]. split; [exact Hin|]. split; [reflexivity|].
    split; [tauto|]. split; [reflexivity|]. apply Hpos. simpl; tauto.
  - exists "gt02", ak. cbn [fst].
    split; [simpl; tauto|]. split; [exact Hin|]. split; [reflexivity|].
    split; [|split; [reflexivity|apply Hpos; simpl; tauto]].
    split; [discriminate|]. intros H. apply R in H. discriminate H.
Qed.

Lemma pestana_ieee_filas_witness :
  exists ratio_key age_key : string,
    In ratio_key claves_ratio
    /\ In age_key claves_edad
    /\ age_map !! "Desconocida" = Some age_key
    /\ (ratio_key = "leq02" <-> (0 <= (2 # 10) * 10000)%Q)
    /\ pestana_ieee 0 10000 "Desconocida" panel_cero
       = Condicion (ieee_paso3_condicion panel_cero
                      (fst (ieee_obtener_limites (Some ratio_key) age_key))
                      (snd (ieee_obtener_limites (Some ratio_key) age_key)))
    /\ ((forall g, In g GASES_IEEE -> (lectura panel_cero g == 0)%Q) ->
        cond_num panel_cero
          (fst (ieee_obtener_limites (Some ratio_key) age_key))
          (snd (ieee_obtener_limites (Some ratio_key) age_key)) = 1%Z).
Proof.
  apply (pestana_ieee_filas 0 10000 "Desconocida" panel_cero).
  - reflexivity.
  - vm_compute. eauto.
Defined.

(** Without a positive N2 the tab computes no condition for any of the four
    age labels, and a label outside the selector stops at the lookup in
    [age_map]. *)
Theorem pestana_ieee_sin_condicion (ieee_o2 ieee_n2 : Q) (age_sel : string)
    (valores_ieee : gmap string Q) :
  ((ieee_n2 <= 0)%Q -> is_Some (age_map !! age_sel) ->
   pestana_ieee ieee_o2 ieee_n2 age_sel valores_ieee = SinRatio)
  /\ (age_map !! age_sel = None ->
      pestana_ieee ieee_o2 ieee_n2 age_sel valores_ieee = KeyError).
Proof.
  unfold pestana_ieee. split.
  - intros Hn [ak ->].
    now rewrite (proj2 (PyFacts.gt_false _ _) Hn), andb_false_r.
  - intros ->. reflexivity.
Qed.

Lemma pestana_ieee_sin_condicion_witness :
  pestana_ieee 5 0 ">30 años" panel_cero = SinRatio.
Proof.
  apply (proj1 (pestana_ieee_sin_condicion 5 0 ">30 años" panel_cero)).
  - vm_compute. discriminate.
  - vm_compute. eauto.
Defined.

(** ** The labels of the plot *)

(** Where the seven zone labels are written: the fill of the raster under
    the anchor of each label.  The labels T1, T3, D1 and D2 sit on their own
    zone; the label PD sits on the fill of T1, the label T2 on the fill of
    DT and the label DT on the fill of D2.  The anchor of T2 does not sum to
    100 and the point classifier calls it out of range; it calls the anchor
    of DT a D2. *)
Theorem etiquetas_sobre_raster :
  map (fun e : Q * Q * Q * codigo =>
         let '(ch4, c2h4, c2h2, texto) := e in
         let xy := tern2cart ch4 c2h4 c2h2 in
         (texto, zona_celda (fst xy) (snd xy), clasificar_duval ch4 c2h4 c2h2))
      etiquetas_tern
  = [(PD, Some T1, PD); (T1, Some T1, T1); (T2, Some DT, Fuera);
     (T3, Some T3, T3); (D1, Some D1, D1); (D2, Some D2, D2);
     (DT, Some D2, D2)].
Proof. vm_compute. reflexivity. Qed.
